(** * flaskr.auth: the authentication blueprint

    A shallow embedding of [flaskr/auth.py]: the views [register], [login]
    and [logout], the before-request hook [load_logged_in_user] and the
    decorator [login_required], together with the collaborators they
    use (the [user] table behind [get_db()], the Flask [session], the
    request-scoped [g.user] and the queue filled by [flash]).

    Views are computations in a state-and-exception monad over the
    application context [ctx]. *)

From Stdlib Require Import ZArith String List Bool.
From stdpp Require Import gmap strings list fin_maps.

Local Open Scope string_scope.
Local Open Scope Z_scope.

(** ** Data model *)

(** A row of the [user] table; the columns are [id], [username] and
    [password] ([user['id']], [user['password']] in the views). *)
Module user.
Record t : Type := mk { id : Z; username : string; password : string }.
End user.

(** Modelled from the spec: the store behind [get_db()] ([flaskr/db.py]
    and the schema are not among the sources), a relational store with
    one [user] table, atomic single-statement writes and [commit].
    [stored] is what has been committed, [visible] is what the
    statements of this connection read and write (the committed rows
    plus the open transaction). *)
Record database : Type := mkdb {
  stored : list user.t;
  visible : list user.t
}.

(** The incoming request: [request.method] and [request.form]. *)
Record request : Type := mkreq {
  method : string;
  form : gmap string string
}.

(** What a view returns: [redirect(url_for(endpoint))] or
    [render_template(name)]. *)
Inductive response : Type :=
| Redirect (endpoint : string)
| Render (template : string).

(** The exceptions a view can let escape. *)
Inductive exn : Type :=
| BadRequestKeyError (key : string)
| IntegrityError (constraint : string)
| TypeError (what : string).

(** The application context a view runs in.  [flashes] is the queue that
    [flash] appends to.  Flask files that queue under a key of its own
    ([_flashes]), which the next rendered page takes out again; the model
    keeps it as a field of its own, so that [session] holds the keys the
    views themselves store. *)
Record ctx : Type := mkctx {
  db : database;
  session : gmap string Z;
  g_user : option user.t;
  flashes : list string
}.

Definition set_db (d : database) (c : ctx) : ctx :=
  mkctx d (session c) (g_user c) (flashes c).
Definition set_session (s : gmap string Z) (c : ctx) : ctx :=
  mkctx (db c) s (g_user c) (flashes c).
Definition set_g_user (u : option user.t) (c : ctx) : ctx :=
  mkctx (db c) (session c) u (flashes c).
Definition set_flashes (f : list string) (c : ctx) : ctx :=
  mkctx (db c) (session c) (g_user c) f.

(** ** The monad of views *)

Inductive outcome (A : Type) : Type :=
| Return (a : A)
| Raise (e : exn).
Arguments Return {A} a.
Arguments Raise {A} e.

Definition M (A : Type) : Type := ctx -> outcome A * ctx.

Definition ret {A} (a : A) : M A := fun c => (Return a, c).
Definition raise {A} (e : exn) : M A := fun c => (Raise e, c).
Definition bind {A B} (m : M A) (k : A -> M B) : M B :=
  fun c => match m c with
           | (Return a, c') => k a c'
           | (Raise e, c') => (Raise e, c')
           end.

Declare Scope view_scope.
Delimit Scope view_scope with view.
Notation "x <- m ;; k" := (bind m (fun x => k))
  (at level 100, m at next level, right associativity) : view_scope.
Notation "m ;; k" := (bind m (fun _ => k))
  (at level 100, right associativity) : view_scope.
Local Open Scope view_scope.

(** ** The user table *)

(** [WHERE username = ?]: exact comparison of the two strings. *)
Definition username_is (name : string) (r : user.t) : bool :=
  String.eqb (user.username r) name.

(** [WHERE id = ?]. *)
Definition id_is (i : Z) (r : user.t) : bool :=
  Z.eqb (user.id r) i.

(** Modelled from the spec: the [id] column of the [user] table (its
    schema is not among the sources), a unique integer per user.  The
    table gives its next row an id one above every id in use. *)
Definition next_id (rows : list user.t) : Z :=
  1 + fold_right Z.max 0 (map user.id rows).

(** [db.execute('SELECT * FROM user WHERE username = ?', (name,)).fetchone()] *)
Definition select_user_by_username (name : string) : M (option user.t) :=
  fun c => (Return (find (username_is name) (visible (db c))), c).

(** [db.execute('SELECT id FROM user WHERE username = ?', (name,)).fetchone()] *)
Definition select_id_by_username (name : string) : M (option Z) :=
  fun c => (Return (option_map user.id (find (username_is name) (visible (db c)))), c).

(** [db.execute('SELECT * FROM user WHERE id = ?', (i,)).fetchone()] *)
Definition select_user_by_id (i : Z) : M (option user.t) :=
  fun c => (Return (find (id_is i) (visible (db c))), c).

(** Modelled from the spec: the uniqueness of [username] in the [user]
    table (its schema is not among the sources), which the store
    enforces when a row is written.  A row with this username stands in
    the way of another one. *)
Definition username_taken (name : string) (rows : list user.t) : bool :=
  existsb (username_is name) rows.

(** [db.execute('INSERT INTO user (username, password) VALUES (?, ?)', ...)]:
    the statement is refused when the username is taken, otherwise the
    row joins the open transaction. *)
Definition insert_user (name pw : string) : M unit :=
  fun c =>
    let rows := visible (db c) in
    if username_taken name rows
    then (Raise (IntegrityError "UNIQUE constraint failed: user.username"), c)
    else (Return tt,
          set_db (mkdb (stored (db c))
                       (rows ++ [user.mk (next_id rows) name pw])) c).

(** [db.commit()] *)
Definition commit : M unit :=
  fun c => (Return tt, set_db (mkdb (visible (db c)) (visible (db c))) c).

(** Rows committed by other connections while this request is running. *)
Definition concurrently (rows : list user.t) : M unit :=
  fun c => (Return tt,
            set_db (mkdb (stored (db c) ++ rows) (visible (db c) ++ rows)) c).

(** ** Flask collaborators *)

(** [request.form[key]] *)
Definition form_get (req : request) (key : string) : M string :=
  match form req !! key with
  | Some v => ret v
  | None => raise (BadRequestKeyError key)
  end.

(** [flash(message)] *)
Definition flash (message : string) : M unit :=
  fun c => (Return tt, set_flashes (flashes c ++ [message]) c).

(** [session.clear()] *)
Definition session_clear : M unit :=
  fun c => (Return tt, set_session ∅ c).

(** [session[key] = v] *)
Definition session_set (key : string) (v : Z) : M unit :=
  fun c => (Return tt, set_session (<[key := v]> (session c)) c).

(** [session.get(key)] *)
Definition session_get (key : string) : M (option Z) :=
  fun c => (Return (session c !! key), c).

(** [g.user = u] *)
Definition assign_g_user (u : option user.t) : M unit :=
  fun c => (Return tt, set_g_user u c).

(** [g.user] *)
Definition read_g_user : M (option user.t) :=
  fun c => (Return (g_user c), c).

(** Python's truth value of a string: [not s] holds for the empty string
    only. *)
Definition falsy (s : string) : bool :=
  match s with EmptyString => true | String _ _ => false end.

(** A toy password hasher, used to run the views on concrete inputs:
    the digest is the salt and the plaintext behind a tag. *)
Module toy.
Definition generate_password_hash (salt pw : string) : string :=
  "toy$" ++ pw ++ "$" ++ salt.
Definition check_password_hash (pwhash pw : string) : bool :=
  String.prefix ("toy$" ++ pw ++ "$") pwhash.
End toy.

(** ** The views *)

Section Auth.

(** [werkzeug.security]: [generate_password_hash] draws a random salt,
    which the model takes as an argument; [check_password_hash] takes
    the stored hash first and the candidate password second. *)
Variable generate_password_hash : string -> string -> string.
Variable check_password_hash : string -> string -> bool.

(** [register], with [yield] standing for what other connections do
    between the duplicate check and the [INSERT]. *)
Definition register_amid (yield : M unit) (salt : string) (req : request)
  : M response :=
  if String.eqb (method req) "POST" then
    username <- form_get req "username" ;;
    password <- form_get req "password" ;;
    error <- (if falsy username then ret (Some "Username is required.")
              else if falsy password then ret (Some "Password is required.")
              else existing <- select_id_by_username username ;;
                   match existing with
                   | Some _ =>
                       ret (Some ("User " ++ username ++ " is already registered."))
                   | None => ret None
                   end) ;;
    yield ;;
    match error with
    | None =>
        insert_user username (generate_password_hash salt password) ;;
        commit ;;
        ret (Redirect "auth.login")
    | Some e =>
        flash e ;;
        ret (Render "auth/register.html")
    end
  else ret (Render "auth/register.html").

(** [register] as one request runs it on its own. *)
Definition register : string -> request -> M response :=
  register_amid (ret tt).

Definition login (req : request) : M response :=
  if String.eqb (method req) "POST" then
    username <- form_get req "username" ;;
    password <- form_get req "password" ;;
    user <- select_user_by_username username ;;
    let error :=
      match user with
      | None => Some "Incorrect username."
      | Some u =>
          if negb (check_password_hash (user.password u) password)
          then Some "Incorrect password."
          else None
      end in
    match error with
    | None =>
        session_clear ;;
        match user with
        | Some u =>
            session_set "user_id" (user.id u) ;;
            ret (Redirect "index")
        | None => raise (TypeError "'NoneType' object is not subscriptable")
        end
    | Some e =>
        flash e ;;
        ret (Render "auth/login.html")
    end
  else ret (Render "auth/login.html").

End Auth.

Definition load_logged_in_user : M unit :=
  user_id <- session_get "user_id" ;;
  match user_id with
  | None => assign_g_user None
  | Some i =>
      row <- select_user_by_id i ;;
      assign_g_user row
  end.

Definition logout : M response :=
  session_clear ;;
  ret (Redirect "index").

(** [login_required(view)]: [K] is the type of the keyword arguments. *)
Definition login_required {K : Type} (view : K -> M response) : K -> M response :=
  fun kwargs =>
    u <- read_g_user ;;
    match u with
    | None => ret (Redirect "auth.login")
    | Some _ => view kwargs
    end.

(** ** Requests, tables and contracts the statements speak of *)

(** A POST request whose form carries the two fields the views read. *)
Definition posted (req : request) (username password : string) : Prop :=
  method req = "POST" /\
  form req !! "username" = Some username /\
  form req !! "password" = Some password.

(** The POST request a client sends with exactly these two fields. *)
Definition post (username password : string) : request :=
  mkreq "POST" (<["username" := username]> (<["password" := password]> ∅)).

(** Some row of the table carries this username. *)
Definition registered (name : string) (c : ctx) : Prop :=
  exists r, r ∈ visible (db c) /\ user.username r = name.

(** No row of the table carries this username. *)
Definition unregistered (name : string) (c : ctx) : Prop :=
  forall r, r ∈ visible (db c) -> user.username r <> name.

(** The contract of the password hasher: a hash verifies against the
    password it was made from, whatever the salt, and is never that
    password itself. *)
Definition hasher_verifies
    (generate_password_hash : string -> string -> string)
    (check_password_hash : string -> string -> bool) : Prop :=
  forall salt pw, check_password_hash (generate_password_hash salt pw) pw = true.

Definition hasher_opaque
    (generate_password_hash : string -> string -> string) : Prop :=
  forall salt pw, generate_password_hash salt pw <> pw.

(** A context with the given table, nothing pending, and a session. *)
Definition fresh_ctx (rows : list user.t) (s : gmap string Z) : ctx :=
  mkctx (mkdb rows rows) s None [].

(** A table with one user, seen by a request whose session carries a key
    of its own, and the row another connection commits for [bob]. *)
Definition alice : user.t :=
  user.mk 1 "alice" (toy.generate_password_hash "NaCl" "wonderland").

Definition demo_ctx : ctx := fresh_ctx [alice] {["visits" := 3]}.

Definition bob_elsewhere : user.t :=
  user.mk 2 "bob" (toy.generate_password_hash "KCl" "hunter2").

(** A view with an effect of its own, to put behind [login_required]. *)
Definition create_post (title : string) : M response :=
  (flash ("created " ++ title) ;; ret (Redirect "index"))%view.

(** ** The request cycle and the test client *)

(** [@bp.before_app_request]: [load_logged_in_user] runs before the view
    of every request, whatever URL is requested. *)
Definition handle (view : M response) : M response :=
  load_logged_in_user ;; view.

(** [tests/conftest.py], class [AuthActions]: [login] posts the two
    fields to [/auth/login], each being ['test'] when the caller leaves
    it out ([None] here); [logout] gets [/auth/logout]. *)
Module AuthActions.
Definition login (check_password_hash : string -> string -> bool)
    (username password : option string) : M response :=
  handle (login check_password_hash
            (post (default "test" username) (default "test" password))).
Definition logout : M response :=
  handle logout.
End AuthActions.

(** What one request of a client hands to a later one when nothing is
    written in between: the session and the database.  [g] and the
    flashed messages are its own. *)
Definition later (c1 c2 : ctx) : Prop :=
  session c2 = session c1 /\ db c2 = db c1.

(** No two rows of the table carry the same username, the same id. *)
Definition usernames_unique (c : ctx) : Prop :=
  NoDup (map user.username (visible (db c))).

Definition ids_unique (c : ctx) : Prop :=
  NoDup (map user.id (visible (db c))).

(** A request that posts a username and nothing else, and one that gets
    the form. *)
Definition post_username_only (username : string) : request :=
  mkreq "POST" {["username" := username]}.

Definition get_request : request := mkreq "GET" ∅.

(** Runs the opening of a view on a request known to be [posted]: the
    method test and the two form lookups. *)
Ltac run_view H :=
  let Hmeth := fresh "Hmeth" in
  let Hfu := fresh "Hfu" in
  let Hfp := fresh "Hfp" in
  destruct H as (Hmeth & Hfu & Hfp);
  unfold bind, form_get, ret; cbn;
  rewrite ?Hmeth, ?Hfu, ?Hfp; cbn.

(** * Properties *)

(** ** The table *)

Lemma username_is_true name r : username_is name r = true <-> user.username r = name.
Proof. unfold username_is. apply String.eqb_eq. Qed.

Lemma find_username_none name rows :
  (forall r, r ∈ rows -> user.username r <> name) ->
  find (username_is name) rows = None.
Proof.
  induction rows as [|r rows IH]; intros H; [reflexivity|].
  cbn. destruct (username_is name r) eqn:E.
  - apply username_is_true in E. exfalso. apply (H r); [left | exact E].
  - apply IH. intros r' Hr'. apply H. now right.
Qed.

Lemma find_username_some name rows row :
  find (username_is name) rows = Some row ->
  row ∈ rows /\ user.username row = name.
Proof.
  intros H. apply find_some in H as [Hin Hn].
  split; [now apply list_elem_of_In | now apply username_is_true].
Qed.

Lemma username_taken_false name rows :
  (forall r, r ∈ rows -> user.username r <> name) ->
  username_taken name rows = false.
Proof.
  intros H. apply not_true_is_false. intros E. unfold username_taken in E.
  apply existsb_exists in E as (r & Hin & Hr).
  apply (H r); [now apply list_elem_of_In | now apply username_is_true].
Qed.

Lemma unregistered_untaken name c :
  username_taken name (visible (db c)) = false -> unregistered name c.
Proof.
  intros E r Hin Hr.
  assert (username_taken name (visible (db c)) = true); [|congruence].
  apply existsb_exists. exists r.
  split; [now apply list_elem_of_In | now apply username_is_true].
Qed.

Lemma registered_taken name c :
  username_taken name (visible (db c)) = true -> registered name c.
Proof.
  intros E. unfold username_taken in E. apply existsb_exists in E as (r & Hin & Hr). exists r.
  split; [now apply list_elem_of_In | now apply username_is_true].
Qed.

Lemma find_app_fresh {A} (f : A -> bool) l x :
  find f l = None -> f x = true -> find f (l ++ [x]) = Some x.
Proof.
  induction l as [|a l IH]; cbn; intros Hn Hx.
  - now rewrite Hx.
  - destruct (f a); [discriminate | now apply IH].
Qed.

Lemma next_id_above rows r : r ∈ rows -> user.id r < next_id rows.
Proof.
  unfold next_id. induction rows as [|a rows IH]; intros Hin.
  - inversion Hin.
  - cbn. apply elem_of_cons in Hin as [-> | Hin]; [lia|].
    specialize (IH Hin). lia.
Qed.

(** ** Running a view *)

Lemma posted_post u p : posted (post u p) u p.
Proof. repeat split. Qed.



(** ** login *)

Section Login.

Variable check_password_hash : string -> string -> bool.

Lemma login_unknown req u p c :
  posted req u p -> unregistered u c ->
  login check_password_hash req c =
    (Return (Render "auth/login.html"),
     set_flashes (flashes c ++ ["Incorrect username."]) c).
Proof.
  intros H Hun. unfold login. run_view H.
  now rewrite (find_username_none u _ Hun).
Qed.

Lemma login_found req u p c row :
  posted req u p ->
  find (username_is u) (visible (db c)) = Some row ->
  login check_password_hash req c =
    if check_password_hash (user.password row) p
    then (Return (Redirect "index"),
          set_session (<["user_id" := user.id row]> ∅) c)
    else (Return (Render "auth/login.html"),
          set_flashes (flashes c ++ ["Incorrect password."]) c).
Proof.
  intros H Hf. unfold login. run_view H.
  rewrite Hf. now destruct (check_password_hash _ _).
Qed.

(** C1.  A POST to [login] follows the decision table.  When no row of
    the table carries exactly the submitted username, the view surfaces
    the authentication error for an unknown user (it flashes
    ['Incorrect username.'] and renders the login form again).  When the
    lookup finds a row, that row carries exactly the submitted username;
    if [check_password_hash] rejects the submitted password against the
    row's hash, the view surfaces the authentication error for a wrong
    password (['Incorrect password.'], login form again).  In both error
    cases the session is what it was.  If the check accepts, the session
    is cleared, then its [user_id] is set to the row's id (so it holds
    that key and no other), and the view redirects to [index]. *)
Theorem login_decision_table (req : request) (u p : string) (c : ctx) :
  posted req u p ->
  (unregistered u c ->
     login check_password_hash req c =
       (Return (Render "auth/login.html"),
        set_flashes (flashes c ++ ["Incorrect username."]) c)
     /\ session (snd (login check_password_hash req c)) = session c)
  /\
  (forall row,
     select_user_by_username u c = (Return (Some row), c) ->
     user.username row = u
     /\ (check_password_hash (user.password row) p = false ->
           login check_password_hash req c =
             (Return (Render "auth/login.html"),
              set_flashes (flashes c ++ ["Incorrect password."]) c)
           /\ session (snd (login check_password_hash req c)) = session c)
     /\ (check_password_hash (user.password row) p = true ->
           login check_password_hash req c =
             (Return (Redirect "index"),
              set_session (<["user_id" := user.id row]> ∅) c)
           /\ session (snd (login check_password_hash req c))
              = {["user_id" := user.id row]})).
Proof.
  intros H. split.
  - intros Hun. rewrite (login_unknown _ _ _ _ H Hun). now split.
  - intros row Hsel. unfold select_user_by_username in Hsel.
    injection Hsel as Hf. split; [|split].
    + now apply find_username_some in Hf.
    + intros Hc. rewrite (login_found _ _ _ _ _ H Hf), Hc. now split.
    + intros Hc. rewrite (login_found _ _ _ _ _ H Hf), Hc. now split.
Qed.

End Login.

(** C10.  For a username that no row of the table carries, [login] does
    the same thing whatever the submitted password: the two runs return
    the same response (the error for an unknown user) and leave the same
    context, session included.  The password check takes no part in it:
    the outcome is also the same for any two check functions. *)
Theorem login_unknown_ignores_password
    (check1 check2 : string -> string -> bool)
    (req1 req2 : request) (u p1 p2 : string) (c : ctx) :
  posted req1 u p1 -> posted req2 u p2 -> unregistered u c ->
  login check1 req1 c = login check2 req2 c.
Proof.
  intros H1 H2 Hun.
  now rewrite (login_unknown check1 _ _ _ _ H1 Hun),
              (login_unknown check2 _ _ _ _ H2 Hun).
Qed.

(** ** register *)

Lemma falsy_true s : falsy s = true <-> s = "".
Proof. destruct s; cbn; split; congruence. Qed.

Lemma falsy_false s : s <> "" -> falsy s = false.
Proof. destruct s; cbn; congruence. Qed.

Lemma find_username_registered name c :
  registered name c ->
  exists row, find (username_is name) (visible (db c)) = Some row.
Proof.
  intros (r & Hin & Hr).
  destruct (find (username_is name) (visible (db c))) as [row|] eqn:E; [eauto|].
  exfalso. apply list_elem_of_In in Hin.
  apply (find_none _ _ E) in Hin. apply username_is_true in Hr. congruence.
Qed.

Section Register.

Variable generate_password_hash : string -> string -> string.

Lemma register_missing_username salt req p c :
  posted req "" p ->
  register generate_password_hash salt req c =
    (Return (Render "auth/register.html"),
     set_flashes (flashes c ++ ["Username is required."]) c).
Proof. intros H. unfold register, register_amid. now run_view H. Qed.

Lemma register_missing_password salt req u c :
  posted req u "" -> u <> "" ->
  register generate_password_hash salt req c =
    (Return (Render "auth/register.html"),
     set_flashes (flashes c ++ ["Password is required."]) c).
Proof.
  intros H Hu. unfold register, register_amid. run_view H.
  now rewrite (falsy_false u Hu).
Qed.

Lemma register_taken salt req u p c :
  posted req u p -> u <> "" -> p <> "" -> registered u c ->
  register generate_password_hash salt req c =
    (Return (Render "auth/register.html"),
     set_flashes (flashes c ++ ["User " ++ u ++ " is already registered."]) c).
Proof.
  intros H Hu Hp Hreg. unfold register, register_amid. run_view H.
  rewrite (falsy_false u Hu), (falsy_false p Hp).
  destruct (find_username_registered u c Hreg) as [row Hf].
  now rewrite Hf.
Qed.

Lemma register_amid_unchecked yield salt req u p c :
  posted req u p -> u <> "" -> p <> "" -> unregistered u c ->
  register_amid generate_password_hash yield salt req c =
    (yield ;;
     insert_user u (generate_password_hash salt p) ;;
     commit ;;
     ret (Redirect "auth.login")) c.
Proof.
  intros H Hu Hp Hun. unfold register_amid. run_view H.
  rewrite (falsy_false u Hu), (falsy_false p Hp).
  now rewrite (find_username_none u _ Hun).
Qed.

Lemma register_fresh salt req u p c :
  posted req u p -> u <> "" -> p <> "" -> unregistered u c ->
  let row := user.mk (next_id (visible (db c))) u (generate_password_hash salt p) in
  register generate_password_hash salt req c =
    (Return (Redirect "auth.login"),
     set_db (mkdb (visible (db c) ++ [row]) (visible (db c) ++ [row])) c).
Proof.
  intros H Hu Hp Hun row. unfold register.
  rewrite (register_amid_unchecked _ _ _ _ _ _ H Hu Hp Hun).
  unfold bind, ret, insert_user, commit; cbn.
  now rewrite (username_taken_false u _ Hun).
Qed.

End Register.

(** ** The toy hasher meets the hasher's contract *)

Lemma string_append_cons ch a b : (String ch a ++ b = String ch (a ++ b))%string.
Proof. reflexivity. Qed.

Lemma prefix_append a b : String.prefix a (a ++ b) = true.
Proof.
  induction a as [|ch a IH].
  - now destruct b.
  - rewrite string_append_cons. simpl.
    destruct (Ascii.ascii_dec ch ch); [exact IH | congruence].
Qed.

Lemma string_length_append a b :
  String.length (a ++ b) = (String.length a + String.length b)%nat.
Proof.
  induction a as [|ch a IH]; [reflexivity|].
  rewrite string_append_cons. simpl. now rewrite IH.
Qed.

Lemma string_append_assoc a b c : ((a ++ b) ++ c = a ++ b ++ c)%string.
Proof.
  induction a as [|ch a IH]; [reflexivity|].
  rewrite !string_append_cons. now rewrite IH.
Qed.

Lemma toy_check_generate salt pw :
  toy.check_password_hash (toy.generate_password_hash salt pw) pw = true.
Proof.
  unfold toy.check_password_hash, toy.generate_password_hash.
  replace ("toy$" ++ pw ++ "$" ++ salt) with (("toy$" ++ pw ++ "$") ++ salt).
  - apply prefix_append.
  - now rewrite !string_append_assoc.
Qed.

Lemma toy_generate_opaque salt pw : toy.generate_password_hash salt pw <> pw.
Proof.
  unfold toy.generate_password_hash. intros E.
  apply (f_equal String.length) in E.
  rewrite !string_length_append in E. simpl in E. lia.
Qed.

(** ** register, continued *)

Section RegisterClaims.

Variable generate_password_hash : string -> string -> string.
Variable check_password_hash : string -> string -> bool.

(** C2.  A POST to [register] with a non-empty username that no row
    carries and a non-empty password hashes the password, adds exactly
    one row (the submitted username with that hash) at the end of the
    table, commits (what is stored is then what the connection sees) and
    redirects to [auth.login].  Given the hasher's contract, the stored
    hash is not the plaintext and verifies against it. *)
Theorem register_creates_one_user
    (salt : string) (req : request) (u p : string) (c : ctx) :
  hasher_verifies generate_password_hash check_password_hash ->
  hasher_opaque generate_password_hash ->
  posted req u p -> u <> "" -> p <> "" -> unregistered u c ->
  exists row c',
    register generate_password_hash salt req c = (Return (Redirect "auth.login"), c')
    /\ user.username row = u
    /\ user.password row = generate_password_hash salt p
    /\ visible (db c') = (visible (db c) ++ [row])%list
    /\ stored (db c') = visible (db c')
    /\ length (visible (db c')) = S (length (visible (db c)))
    /\ user.password row <> p
    /\ check_password_hash (user.password row) p = true.
Proof.
  intros Hv Ho H Hu Hp Hun.
  eexists (user.mk (next_id (visible (db c))) u (generate_password_hash salt p)), _.
  rewrite (register_fresh _ _ _ _ _ _ H Hu Hp Hun). cbn.
  repeat split; cbn; [rewrite length_app; cbn; lia | apply Ho | apply Hv].
Qed.

(** C3.  A POST to [register] validates in a fixed order and stops at
    the first failure: an empty username gives the validation error for
    a missing username (['Username is required.']) whatever the password
    and the table; otherwise an empty password gives the validation
    error for a missing password (['Password is required.']) whatever
    the table; otherwise a username some row already carries gives the
    conflict error (['User <username> is already registered.']).  Each
    time the message is flashed, the registration form is rendered again
    and the table is what it was: no row is created. *)
Theorem register_validation_order
    (salt : string) (req : request) (u p : string) (c : ctx) :
  posted req u p ->
  (u = "" ->
     register generate_password_hash salt req c =
       (Return (Render "auth/register.html"),
        set_flashes (flashes c ++ ["Username is required."]) c))
  /\ (u <> "" -> p = "" ->
     register generate_password_hash salt req c =
       (Return (Render "auth/register.html"),
        set_flashes (flashes c ++ ["Password is required."]) c))
  /\ (u <> "" -> p <> "" -> registered u c ->
     register generate_password_hash salt req c =
       (Return (Render "auth/register.html"),
        set_flashes (flashes c ++ ["User " ++ u ++ " is already registered."]) c))
  /\ (u = "" \/ p = "" \/ registered u c ->
     db (snd (register generate_password_hash salt req c)) = db c).
Proof.
  intros H.
  assert (H1 : u = "" ->
     register generate_password_hash salt req c =
       (Return (Render "auth/register.html"),
        set_flashes (flashes c ++ ["Username is required."]) c)).
  { intros ->. now apply register_missing_username with (p := p). }
  assert (H2 : u <> "" -> p = "" ->
     register generate_password_hash salt req c =
       (Return (Render "auth/register.html"),
        set_flashes (flashes c ++ ["Password is required."]) c)).
  { intros Hu ->. now apply register_missing_password with (u := u). }
  assert (H3 : u <> "" -> p <> "" -> registered u c ->
     register generate_password_hash salt req c =
       (Return (Render "auth/register.html"),
        set_flashes (flashes c ++ ["User " ++ u ++ " is already registered."]) c)).
  { intros Hu Hp Hr. now apply register_taken with (p := p). }
  repeat split; [exact H1 | exact H2 | exact H3 |].
  intros Hcase.
  destruct (decide (u = "")) as [Hu|Hu]; [now rewrite (H1 Hu)|].
  destruct (decide (p = "")) as [Hp|Hp]; [now rewrite (H2 Hu Hp)|].
  destruct Hcase as [?|[?|Hr]]; [done | done | now rewrite (H3 Hu Hp Hr)].
Qed.

(** C4.  Round trip: after a POST to [register] with a non-empty username
    that no row carries and a non-empty password, a POST to [login] with
    the same username and password, run by any later request that sees
    what the registration committed, is accepted (redirect to [index])
    and leaves [user_id] in the session equal to the id of the row the
    registration created. *)
Theorem register_then_login
    (salt : string) (req_register req_login : request) (u p : string)
    (c : ctx) :
  hasher_verifies generate_password_hash check_password_hash ->
  posted req_register u p -> posted req_login u p ->
  u <> "" -> p <> "" -> unregistered u c ->
  exists row c1,
    register generate_password_hash salt req_register c
      = (Return (Redirect "auth.login"), c1)
    /\ stored (db c1) = (visible (db c) ++ [row])%list
    /\ user.username row = u
    /\ forall c2, visible (db c2) = stored (db c1) ->
         login check_password_hash req_login c2
           = (Return (Redirect "index"),
              set_session (<["user_id" := user.id row]> ∅) c2)
         /\ session (snd (login check_password_hash req_login c2)) !! "user_id"
            = Some (user.id row).
Proof.
  intros Hv Hr Hl Hu Hp Hun.
  set (row := user.mk (next_id (visible (db c))) u (generate_password_hash salt p)).
  exists row. eexists.
  rewrite (register_fresh _ _ _ _ _ _ Hr Hu Hp Hun). cbn. fold row.
  repeat split.
  all: assert (Hfind : find (username_is u) (visible (db c2)) = Some row)
    by (rewrite H; apply find_app_fresh;
        [now apply find_username_none | now apply username_is_true]).
  all: rewrite (login_found check_password_hash _ _ _ _ _ Hl Hfind).
  all: cbn; rewrite (Hv salt p); cbn; try reflexivity.
  all: apply lookup_insert_eq.
Qed.

End RegisterClaims.

(** C8.  When the duplicate check of [register] finds no row and the
    [INSERT] is then refused by the table (another connection committed
    the same username in between), [register] does not handle the
    refusal: the [IntegrityError] leaves the view as an exception.  The
    view returns no response, flashes nothing and writes nothing; the
    context is the one the other connection left. *)
Theorem register_integrity_error_escapes
    (generate_password_hash : string -> string -> string)
    (yield : M unit) (salt : string) (req : request) (u p : string)
    (c c1 c2 : ctx) (constraint : string) :
  posted req u p -> u <> "" -> p <> "" ->
  select_id_by_username u c = (Return None, c) ->
  yield c = (Return tt, c1) ->
  insert_user u (generate_password_hash salt p) c1
    = (Raise (IntegrityError constraint), c2) ->
  register_amid generate_password_hash yield salt req c
    = (Raise (IntegrityError constraint), c1)
  /\ c2 = c1.
Proof.
  intros H Hu Hp Hsel Hy Hins.
  assert (Hc : c2 = c1).
  { unfold insert_user in Hins.
    destruct (username_taken _ _); now inversion Hins. }
  subst c2. split; [|reflexivity].
  unfold register_amid. run_view H.
  rewrite (falsy_false u Hu), (falsy_false p Hp).
  unfold select_id_by_username in Hsel. injection Hsel as Hfind.
  destruct (find (username_is u) (visible (db c))); [discriminate|].
  cbn. rewrite Hy. now rewrite Hins.
Qed.

(** C9.  [register] neither writes nor reads the session: whatever the
    request, the session and [g.user] after the call are those before
    it, and the response, the table and the flashed messages are the
    same whatever the session holds. *)
Theorem register_leaves_session
    (generate_password_hash : string -> string -> string)
    (salt : string) (req : request) (c : ctx) :
  session (snd (register generate_password_hash salt req c)) = session c
  /\ g_user (snd (register generate_password_hash salt req c)) = g_user c
  /\ forall s : gmap string Z,
       fst (register generate_password_hash salt req (set_session s c))
         = fst (register generate_password_hash salt req c)
       /\ db (snd (register generate_password_hash salt req (set_session s c)))
         = db (snd (register generate_password_hash salt req c))
       /\ flashes (snd (register generate_password_hash salt req (set_session s c)))
         = flashes (snd (register generate_password_hash salt req c)).
Proof.
  unfold register, register_amid, bind, form_get, ret, raise,
    select_id_by_username, insert_user, commit, flash.
  destruct (method req =? "POST")%string; [|now cbn].
  destruct (form req !! "username") as [u|]; [|now cbn].
  destruct (form req !! "password") as [p|]; [|now cbn].
  destruct (falsy u); [now cbn|].
  destruct (falsy p); [now cbn|].
  cbn. destruct (find (username_is u) (visible (db c))); [now cbn|].
  cbn. destruct (username_taken u (visible (db c))); now cbn.
Qed.

(** ** load_logged_in_user *)

Lemma find_id_none i rows :
  (forall r, r ∈ rows -> user.id r <> i) -> find (id_is i) rows = None.
Proof.
  induction rows as [|r rows IH]; intros H; [reflexivity|].
  cbn. destruct (id_is i r) eqn:E.
  - apply Z.eqb_eq in E. exfalso. apply (H r); [left | exact E].
  - apply IH. intros r' Hr'. apply H. now right.
Qed.

Lemma find_id_unique rows row :
  NoDup (map user.id rows) -> row ∈ rows ->
  find (id_is (user.id row)) rows = Some row.
Proof.
  induction rows as [|r rows IH]; intros Hnd Hin; [inversion Hin|].
  cbn in Hnd. apply NoDup_cons in Hnd as [Hnotin Hnd].
  cbn. unfold id_is at 1. destruct (Z.eqb_spec (user.id r) (user.id row)) as [E|E].
  - apply elem_of_cons in Hin as [->|Hin]; [reflexivity|].
    exfalso. apply Hnotin. rewrite E. apply list_elem_of_fmap. eauto.
  - apply elem_of_cons in Hin as [->|Hin]; [congruence|]. now apply IH.
Qed.

(** C5.  [load_logged_in_user] sets [g.user] from the session.  With no
    [user_id] in the session, [g.user] is [None].  With a [user_id] that
    is the id of a row of the table (ids being unique), [g.user] is that
    row.  With a [user_id] that no row carries, [g.user] is [None]; the
    hook returns normally.  In every case the hook returns normally and
    the session and the table are what they were. *)
Theorem load_logged_in_user_identity (c : ctx) :
  (session c !! "user_id" = None ->
     load_logged_in_user c = (Return tt, set_g_user None c))
  /\ (forall row,
       session c !! "user_id" = Some (user.id row) ->
       NoDup (map user.id (visible (db c))) -> row ∈ visible (db c) ->
       load_logged_in_user c = (Return tt, set_g_user (Some row) c))
  /\ (forall i,
       session c !! "user_id" = Some i ->
       (forall r, r ∈ visible (db c) -> user.id r <> i) ->
       load_logged_in_user c = (Return tt, set_g_user None c))
  /\ fst (load_logged_in_user c) = Return tt
  /\ session (snd (load_logged_in_user c)) = session c
  /\ db (snd (load_logged_in_user c)) = db c.
Proof.
  unfold load_logged_in_user, bind, session_get, select_user_by_id, assign_g_user.
  repeat split.
  - now intros ->.
  - intros row -> Hnd Hin. now rewrite (find_id_unique _ _ Hnd Hin).
  - intros i -> Hno. now rewrite (find_id_none _ _ Hno).
  - now destruct (session c !! "user_id").
  - now destruct (session c !! "user_id").
  - now destruct (session c !! "user_id").
Qed.

(** ** login_required *)

(** C6.  The view wrapped by [login_required]: when [g.user] is [None]
    it redirects to [auth.login] and leaves the context untouched,
    whatever the wrapped view is (the view is not run, none of its
    effects occur); when [g.user] is set it is the wrapped view run on
    the same keyword arguments, response and effects included. *)
Theorem login_required_guard
    {K : Type} (view : K -> M response) (kwargs : K) (c : ctx) :
  (g_user c = None ->
     login_required view kwargs c = (Return (Redirect "auth.login"), c)
     /\ forall view' : K -> M response,
          login_required view' kwargs c = login_required view kwargs c)
  /\ (g_user c <> None ->
     login_required view kwargs c = view kwargs c).
Proof.
  unfold login_required, bind, read_g_user, ret. split.
  - intros ->. now split.
  - intros Hu. now destruct (g_user c).
Qed.

(** ** logout *)

Lemma set_session_same c : set_session (session c) c = c.
Proof. now destruct c. Qed.

(** C7.  [logout] empties the whole session, whatever keys it held, and
    redirects to [index], in every context.  With a session that is
    already empty it changes nothing; run twice it leaves what one run
    leaves.  [load_logged_in_user], run after it, sets [g.user] to
    [None]. *)
Theorem logout_clears_session (c : ctx) :
  logout c = (Return (Redirect "index"), set_session ∅ c)
  /\ (forall k : string, session (snd (logout c)) !! k = None)
  /\ (session c = ∅ -> logout c = (Return (Redirect "index"), c))
  /\ (logout ;; logout)%view c = logout c
  /\ load_logged_in_user (snd (logout c))
     = (Return tt, set_g_user None (snd (logout c))).
Proof.
  unfold logout, bind, session_clear, ret; cbn.
  split; [reflexivity|]. split; [intros k; apply lookup_empty|].
  split; [|split; reflexivity].
  intros <-. now rewrite set_session_same.
Qed.

(** * Concrete requests *)

Lemma login_decision_table_witness :
  login toy.check_password_hash (post "alice" "wonderland") demo_ctx
    = (Return (Redirect "index"), set_session {["user_id" := 1]} demo_ctx)
  /\ login toy.check_password_hash (post "alice" "looking-glass") demo_ctx
    = (Return (Render "auth/login.html"),
       set_flashes ["Incorrect password."] demo_ctx)
  /\ login toy.check_password_hash (post "Alice" "wonderland") demo_ctx
    = (Return (Render "auth/login.html"),
       set_flashes ["Incorrect username."] demo_ctx).
Proof.
  split; [|split].
  - destruct (login_decision_table toy.check_password_hash
                (post "alice" "wonderland") "alice" "wonderland" demo_ctx
                (posted_post _ _)) as [_ Hrow].
    destruct (Hrow alice eq_refl) as (_ & _ & Hok).
    exact (proj1 (Hok eq_refl)).
  - destruct (login_decision_table toy.check_password_hash
                (post "alice" "looking-glass") "alice" "looking-glass" demo_ctx
                (posted_post _ _)) as [_ Hrow].
    destruct (Hrow alice eq_refl) as (_ & Hbad & _).
    exact (proj1 (Hbad eq_refl)).
  - destruct (login_decision_table toy.check_password_hash
                (post "Alice" "wonderland") "Alice" "wonderland" demo_ctx
                (posted_post _ _)) as [Hnone _].
    exact (proj1 (Hnone (unregistered_untaken "Alice" demo_ctx eq_refl))).
Defined.

Lemma login_unknown_ignores_password_witness :
  login toy.check_password_hash (post "bob" "builder") demo_ctx
    = login (fun _ _ => true) (post "bob" "hunter2") demo_ctx.
Proof.
  apply (login_unknown_ignores_password _ _ _ _ "bob" "builder" "hunter2").
  - apply posted_post.
  - apply posted_post.
  - apply unregistered_untaken. reflexivity.
Defined.

Lemma register_creates_one_user_witness :
  exists row c',
    register toy.generate_password_hash "pepper" (post "bob" "builder") demo_ctx
      = (Return (Redirect "auth.login"), c')
    /\ user.username row = "bob"
    /\ user.password row = toy.generate_password_hash "pepper" "builder"
    /\ visible (db c') = (visible (db demo_ctx) ++ [row])%list
    /\ stored (db c') = visible (db c')
    /\ length (visible (db c')) = S (length (visible (db demo_ctx)))
    /\ user.password row <> "builder"
    /\ toy.check_password_hash (user.password row) "builder" = true.
Proof.
  apply register_creates_one_user.
  - exact toy_check_generate.
  - exact toy_generate_opaque.
  - apply posted_post.
  - discriminate.
  - discriminate.
  - apply unregistered_untaken. reflexivity.
Defined.

Lemma register_validation_order_witness :
  register toy.generate_password_hash "pepper" (post "" "x") demo_ctx
    = (Return (Render "auth/register.html"),
       set_flashes ["Username is required."] demo_ctx)
  /\ register toy.generate_password_hash "pepper" (post "alice" "") demo_ctx
    = (Return (Render "auth/register.html"),
       set_flashes ["Password is required."] demo_ctx)
  /\ register toy.generate_password_hash "pepper" (post "alice" "x") demo_ctx
    = (Return (Render "auth/register.html"),
       set_flashes ["User alice is already registered."] demo_ctx)
  /\ db (snd (register toy.generate_password_hash "pepper" (post "alice" "x")
                demo_ctx)) = db demo_ctx.
Proof.
  split; [|split; [|split]].
  - destruct (register_validation_order toy.generate_password_hash "pepper"
                (post "" "x") "" "x" demo_ctx (posted_post _ _)) as (H1 & _).
    exact (H1 eq_refl).
  - destruct (register_validation_order toy.generate_password_hash "pepper"
                (post "alice" "") "alice" "" demo_ctx (posted_post _ _))
      as (_ & H2 & _).
    apply H2; [discriminate | reflexivity].
  - destruct (register_validation_order toy.generate_password_hash "pepper"
                (post "alice" "x") "alice" "x" demo_ctx (posted_post _ _))
      as (_ & _ & H3 & _).
    apply H3; [discriminate | discriminate |].
    apply registered_taken. reflexivity.
  - destruct (register_validation_order toy.generate_password_hash "pepper"
                (post "alice" "x") "alice" "x" demo_ctx (posted_post _ _))
      as (_ & _ & _ & H4).
    apply H4. right. right. apply registered_taken. reflexivity.
Defined.

Lemma register_then_login_witness :
  exists row c1,
    register toy.generate_password_hash "pepper" (post "bob" "builder") demo_ctx
      = (Return (Redirect "auth.login"), c1)
    /\ stored (db c1) = (visible (db demo_ctx) ++ [row])%list
    /\ user.username row = "bob"
    /\ forall c2, visible (db c2) = stored (db c1) ->
         login toy.check_password_hash (post "bob" "builder") c2
           = (Return (Redirect "index"),
              set_session (<["user_id" := user.id row]> ∅) c2)
         /\ session (snd (login toy.check_password_hash
                            (post "bob" "builder") c2)) !! "user_id"
            = Some (user.id row).
Proof.
  apply (register_then_login toy.generate_password_hash
           toy.check_password_hash "pepper" _ _ "bob" "builder").
  - exact toy_check_generate.
  - apply posted_post.
  - apply posted_post.
  - discriminate.
  - discriminate.
  - apply unregistered_untaken. reflexivity.
Defined.

Lemma register_integrity_error_escapes_witness :
  register_amid toy.generate_password_hash (concurrently [bob_elsewhere])
    "pepper" (post "bob" "builder") demo_ctx
  = (Raise (IntegrityError "UNIQUE constraint failed: user.username"),
     snd (concurrently [bob_elsewhere] demo_ctx)).
Proof.
  refine (proj1 (register_integrity_error_escapes toy.generate_password_hash
            (concurrently [bob_elsewhere]) "pepper" (post "bob" "builder")
            "bob" "builder" demo_ctx _ _ _ (posted_post _ _) _ _ _ _ _)).
  - discriminate.
  - discriminate.
  - reflexivity.
  - reflexivity.
  - reflexivity.
Defined.

(** On the race the refusal is not turned into a conflict message: the
    duplicate check finds no row for [bob], the [INSERT] is refused, and
    the view returns no response at all; nothing is flashed. *)
Lemma register_race_counterexample :
  select_id_by_username "bob" demo_ctx = (Return None, demo_ctx)
  /\ fst (insert_user "bob" (toy.generate_password_hash "pepper" "builder")
            (snd (concurrently [bob_elsewhere] demo_ctx)))
     = Raise (IntegrityError "UNIQUE constraint failed: user.username")
  /\ flashes (snd (register_amid toy.generate_password_hash
                     (concurrently [bob_elsewhere]) "pepper"
                     (post "bob" "builder") demo_ctx)) = []
  /\ ~ exists resp c',
        register_amid toy.generate_password_hash (concurrently [bob_elsewhere])
          "pepper" (post "bob" "builder") demo_ctx = (Return resp, c').
Proof.
  split; [reflexivity|]. split; [reflexivity|]. split; [reflexivity|].
  intros (resp & c' & H).
  apply (f_equal fst) in H. vm_compute in H. discriminate H.
Qed.

Lemma load_logged_in_user_identity_witness :
  load_logged_in_user (set_session {["user_id" := 1]} demo_ctx)
    = (Return tt, set_g_user (Some alice) (set_session {["user_id" := 1]} demo_ctx))
  /\ load_logged_in_user (set_session {["user_id" := 9]} demo_ctx)
    = (Return tt, set_g_user None (set_session {["user_id" := 9]} demo_ctx))
  /\ load_logged_in_user demo_ctx = (Return tt, set_g_user None demo_ctx).
Proof.
  split; [|split].
  - destruct (load_logged_in_user_identity
                (set_session {["user_id" := 1]} demo_ctx)) as (_ & Hrow & _).
    apply (Hrow alice); [reflexivity | | ].
    + apply NoDup_singleton.
    + apply list_elem_of_singleton. reflexivity.
  - destruct (load_logged_in_user_identity
                (set_session {["user_id" := 9]} demo_ctx)) as (_ & _ & Hstale & _).
    apply (Hstale 9); [reflexivity|].
    intros r Hr. apply list_elem_of_singleton in Hr. subst r. discriminate.
  - destruct (load_logged_in_user_identity demo_ctx) as (Hnone & _).
    apply Hnone. reflexivity.
Defined.

Lemma login_required_guard_witness :
  login_required create_post "hello" demo_ctx
    = (Return (Redirect "auth.login"), demo_ctx)
  /\ login_required create_post "hello" (set_g_user (Some alice) demo_ctx)
    = (Return (Redirect "index"),
       set_flashes ["created hello"] (set_g_user (Some alice) demo_ctx)).
Proof.
  split.
  - destruct (login_required_guard create_post "hello" demo_ctx) as (Hnone & _).
    exact (proj1 (Hnone eq_refl)).
  - destruct (login_required_guard create_post "hello"
                (set_g_user (Some alice) demo_ctx)) as (_ & Hsome).
    rewrite Hsome; [reflexivity | discriminate].
Defined.

Lemma logout_clears_session_witness :
  logout (fresh_ctx [alice] ∅) = (Return (Redirect "index"), fresh_ctx [alice] ∅)
  /\ session (snd (logout demo_ctx)) = ∅.
Proof.
  split.
  - destruct (logout_clears_session (fresh_ctx [alice] ∅)) as (_ & _ & Hnoop & _).
    apply Hnoop. reflexivity.
  - destruct (logout_clears_session demo_ctx) as (Heq & _).
    now rewrite Heq.
Defined.

(** * Further properties of the views *)

(** ** Requests that are not a well-formed POST *)

(** X1.  A request whose method is not POST (a GET of the form, say)
    makes [register] and [login] render their form and nothing else: the
    context is untouched and no form field is read, so nothing is raised
    even when the form is empty. *)
Theorem views_render_form_unless_post
    (generate_password_hash : string -> string -> string)
    (check_password_hash : string -> string -> bool)
    (salt : string) (req : request) (c : ctx) :
  method req <> "POST" ->
  register generate_password_hash salt req c
    = (Return (Render "auth/register.html"), c)
  /\ login check_password_hash req c
    = (Return (Render "auth/login.html"), c).
Proof.
  intros Hm. apply String.eqb_neq in Hm.
  unfold register, register_amid, login. now rewrite Hm.
Qed.

Lemma register_lacks_username
    (generate_password_hash : string -> string -> string) salt req c :
  method req = "POST" -> form req !! "username" = None ->
  register generate_password_hash salt req c
    = (Raise (BadRequestKeyError "username"), c).
Proof.
  intros Hm Hu. unfold register, register_amid, bind, form_get.
  now rewrite Hm, Hu.
Qed.

Lemma register_lacks_password
    (generate_password_hash : string -> string -> string) salt req c :
  method req = "POST" ->
  form req !! "username" <> None -> form req !! "password" = None ->
  register generate_password_hash salt req c
    = (Raise (BadRequestKeyError "password"), c).
Proof.
  intros Hm Hu Hp. unfold register, register_amid, bind, form_get.
  rewrite Hm, Hp. now destruct (form req !! "username").
Qed.

Lemma login_lacks_username (check_password_hash : string -> string -> bool) req c :
  method req = "POST" -> form req !! "username" = None ->
  login check_password_hash req c = (Raise (BadRequestKeyError "username"), c).
Proof.
  intros Hm Hu. unfold login, bind, form_get. now rewrite Hm, Hu.
Qed.

Lemma login_lacks_password (check_password_hash : string -> string -> bool) req c :
  method req = "POST" ->
  form req !! "username" <> None -> form req !! "password" = None ->
  login check_password_hash req c = (Raise (BadRequestKeyError "password"), c).
Proof.
  intros Hm Hu Hp. unfold login, bind, form_get.
  rewrite Hm, Hp. now destruct (form req !! "username").
Qed.

(** X2.  A POST to [register] whose form lacks [username] raises
    [BadRequestKeyError] for that key; one that has [username] but lacks
    [password] raises it for [password], also when the username is empty
    or taken: the fields are read before anything is validated.  In both
    cases the context is untouched. *)
Theorem register_missing_field
    (generate_password_hash : string -> string -> string)
    (salt : string) (req : request) (c : ctx) :
  method req = "POST" ->
  (form req !! "username" = None ->
     register generate_password_hash salt req c
       = (Raise (BadRequestKeyError "username"), c))
  /\ (form req !! "username" <> None -> form req !! "password" = None ->
     register generate_password_hash salt req c
       = (Raise (BadRequestKeyError "password"), c)).
Proof.
  intros Hm. split.
  - now apply register_lacks_username.
  - now apply register_lacks_password.
Qed.

(** X3.  A POST to [login] whose form lacks [username], or has it and
    lacks [password], raises [BadRequestKeyError] for the missing key
    before the table is looked at; the context, session included, is
    untouched. *)
Theorem login_missing_field
    (check_password_hash : string -> string -> bool)
    (req : request) (c : ctx) :
  method req = "POST" ->
  (form req !! "username" = None ->
     login check_password_hash req c
       = (Raise (BadRequestKeyError "username"), c))
  /\ (form req !! "username" <> None -> form req !! "password" = None ->
     login check_password_hash req c
       = (Raise (BadRequestKeyError "password"), c)).
Proof.
  intros Hm. split.
  - now apply login_lacks_username.
  - now apply login_lacks_password.
Qed.

(** ** What the views can and cannot do *)

(** X4.  Run on its own, [register] ends in one of four ways, whatever
    the request and the context: it renders the form, it redirects to
    [auth.login], or it raises [BadRequestKeyError] for [username] or
    for [password].  In particular its [INSERT] is never refused: the
    duplicate check has passed on the same table. *)
Theorem register_outcomes
    (generate_password_hash : string -> string -> string)
    (salt : string) (req : request) (c : ctx) :
  let result := fst (register generate_password_hash salt req c) in
  result = Return (Render "auth/register.html")
  \/ result = Return (Redirect "auth.login")
  \/ result = Raise (BadRequestKeyError "username")
  \/ result = Raise (BadRequestKeyError "password").
Proof.
  unfold register, register_amid, bind, form_get, ret, raise,
    select_id_by_username, insert_user, commit, flash, username_taken.
  destruct (method req =? "POST")%string; [|now left].
  destruct (form req !! "username") as [u|]; [|cbn; tauto].
  destruct (form req !! "password") as [p|]; [|cbn; tauto].
  destruct (falsy u); [now left|].
  destruct (falsy p); [now left|].
  cbn. destruct (find (username_is u) (visible (db c))) as [row|] eqn:Hf;
    [now left|].
  cbn. destruct (existsb (username_is u) (visible (db c))) eqn:He; [|cbn; tauto].
  exfalso. apply existsb_exists in He as (r & Hin & Hr).
  apply (find_none _ _ Hf) in Hin. congruence.
Qed.


(** X6.  [login] writes neither the table nor [g.user], and reads
    neither [g.user] nor the session: for every request, the database
    and [g.user] after the call are those before it, and the response
    and the resulting session do not depend on the session and the
    [g.user] the call starts from. *)
Theorem login_frame
    (check_password_hash : string -> string -> bool)
    (req : request) (c : ctx) :
  db (snd (login check_password_hash req c)) = db c
  /\ g_user (snd (login check_password_hash req c)) = g_user c
  /\ forall (s : gmap string Z) (u : option user.t),
       fst (login check_password_hash req (set_g_user u (set_session s c)))
         = fst (login check_password_hash req c)
       /\ (fst (login check_password_hash req c) = Return (Redirect "index") ->
           session (snd (login check_password_hash req
                           (set_g_user u (set_session s c))))
             = session (snd (login check_password_hash req c))).
Proof.
  unfold login, bind, form_get, ret, raise, select_user_by_username,
    session_clear, session_set, flash.
  destruct (method req =? "POST")%string; [|now cbn].
  destruct (form req !! "username") as [u|]; [|now cbn].
  destruct (form req !! "password") as [p|]; [|now cbn].
  cbn. destruct (find (username_is u) (visible (db c))) as [row|]; [|now cbn].
  destruct (check_password_hash (user.password row) p); now cbn.
Qed.

(** ** The table under register *)

Lemma find_none_unregistered name c :
  find (username_is name) (visible (db c)) = None -> unregistered name c.
Proof.
  intros Hf r Hin Hr. apply list_elem_of_In in Hin.
  apply (find_none _ _ Hf) in Hin. apply username_is_true in Hr. congruence.
Qed.

Lemma falsy_false_inv s : falsy s = false -> s <> "".
Proof. destruct s; cbn; congruence. Qed.

(** Every run of [register] is of one of two kinds: it leaves the
    database alone and does not redirect, or it is the accepted
    registration of a fresh username. *)
Lemma register_cases
    (generate_password_hash : string -> string -> string)
    (salt : string) (req : request) (c : ctx) :
  (db (snd (register generate_password_hash salt req c)) = db c
   /\ fst (register generate_password_hash salt req c)
        <> Return (Redirect "auth.login"))
  \/ (exists u p,
        posted req u p /\ u <> "" /\ p <> "" /\ unregistered u c).
Proof.
  destruct (method req =? "POST")%string eqn:Hm.
  2:{ left. unfold register, register_amid. rewrite Hm. now cbn. }
  apply String.eqb_eq in Hm.
  destruct (form req !! "username") as [u|] eqn:Hu.
  2:{ left. rewrite (register_lacks_username _ _ _ _ Hm Hu). now cbn. }
  destruct (form req !! "password") as [p|] eqn:Hp.
  2:{ left. rewrite (register_lacks_password _ _ _ _ Hm); [now cbn | congruence | exact Hp]. }
  assert (H : posted req u p) by now repeat split.
  destruct (falsy u) eqn:Fu.
  { left. apply falsy_true in Fu. subst u.
    rewrite (register_missing_username _ _ _ _ _ H). now cbn. }
  apply falsy_false_inv in Fu.
  destruct (falsy p) eqn:Fp.
  { left. apply falsy_true in Fp. subst p.
    rewrite (register_missing_password _ _ _ _ _ H Fu). now cbn. }
  apply falsy_false_inv in Fp.
  destruct (find (username_is u) (visible (db c))) as [row|] eqn:Hf.
  - left. apply find_username_some in Hf as [Hin Hr].
    rewrite (register_taken _ _ _ _ _ _ H Fu Fp); [now cbn|].
    now exists row.
  - right. exists u, p. repeat split; try easy.
    now apply find_none_unregistered.
Qed.

(** X7.  [register] keeps the usernames of the table distinct: if no two
    rows share a username before the call, none do after it, whatever
    the request. *)
Theorem register_keeps_usernames_unique
    (generate_password_hash : string -> string -> string)
    (salt : string) (req : request) (c : ctx) :
  usernames_unique c ->
  usernames_unique (snd (register generate_password_hash salt req c)).
Proof.
  intros Hnd. unfold usernames_unique in *.
  destruct (register_cases generate_password_hash salt req c)
    as [[Hdb _] | (u & p & H & Hu & Hp & Hun)].
  - now rewrite Hdb.
  - rewrite (register_fresh _ _ _ _ _ _ H Hu Hp Hun). cbn.
    rewrite map_app. cbn. apply NoDup_app. split; [exact Hnd|]. split.
    + intros x Hx Hx'. apply list_elem_of_singleton in Hx'. subst x.
      apply list_elem_of_fmap in Hx as (r & Hr & Hin).
      now apply (Hun r Hin).
    + apply NoDup_singleton.
Qed.

(** X8.  [register] writes the table exactly when it redirects.  A
    redirect to [auth.login] means that one row was appended, made of
    the submitted username and the hash of the submitted password, and
    committed; every row that was there is still there, unchanged.  Any
    other outcome, an exception included, leaves the database as it
    was. *)
Theorem register_writes_only_on_redirect
    (generate_password_hash : string -> string -> string)
    (salt : string) (req : request) (c : ctx) :
  (fst (register generate_password_hash salt req c)
     = Return (Redirect "auth.login") ->
   exists u p,
     form req !! "username" = Some u /\ form req !! "password" = Some p
     /\ visible (db (snd (register generate_password_hash salt req c)))
        = (visible (db c)
           ++ [user.mk (next_id (visible (db c))) u
                 (generate_password_hash salt p)])%list
     /\ stored (db (snd (register generate_password_hash salt req c)))
        = visible (db (snd (register generate_password_hash salt req c))))
  /\ (fst (register generate_password_hash salt req c)
       <> Return (Redirect "auth.login") ->
     db (snd (register generate_password_hash salt req c)) = db c).
Proof.
  destruct (register_cases generate_password_hash salt req c)
    as [[Hdb Hne] | (u & p & H & Hu & Hp & Hun)].
  - split; [intros E; now destruct Hne | intros _; exact Hdb].
  - rewrite (register_fresh _ _ _ _ _ _ H Hu Hp Hun). cbn. split.
    + intros _. exists u, p. destruct H as (_ & Hfu & Hfp). now repeat split.
    + intros Hne. now destruct Hne.
Qed.

(** X10.  Registering the same username twice in a row: when the first
    POST is accepted, the second one is turned down with the conflict
    message, whatever its password, and the table keeps the one row of
    the first registration, with the first password's hash. *)
Theorem register_twice_conflicts
    (generate_password_hash : string -> string -> string)
    (salt1 salt2 : string) (req1 req2 : request) (u p1 p2 : string)
    (c : ctx) :
  posted req1 u p1 -> posted req2 u p2 ->
  u <> "" -> p1 <> "" -> p2 <> "" -> unregistered u c ->
  let row := user.mk (next_id (visible (db c))) u
               (generate_password_hash salt1 p1) in
  (register generate_password_hash salt1 req1 ;;
   register generate_password_hash salt2 req2) c
  = (Return (Render "auth/register.html"),
     set_flashes (flashes c ++ ["User " ++ u ++ " is already registered."])
       (set_db (mkdb (visible (db c) ++ [row]) (visible (db c) ++ [row])) c)).
Proof.
  intros H1 H2 Hu Hp1 Hp2 Hun row. unfold bind at 1.
  rewrite (register_fresh _ _ _ _ _ _ H1 Hu Hp1 Hun). fold row.
  rewrite (register_taken _ _ _ _ _ _ H2 Hu Hp2); [reflexivity|].
  exists row. split; [|reflexivity].
  cbn. apply elem_of_app. right. now apply list_elem_of_singleton.
Qed.

(** ** What a redirect of login stands for *)

(** Every run of [login] is of one of two kinds: it leaves the session
    alone and does not redirect, or it has found a row for the submitted
    username. *)
Lemma login_cases (check_password_hash : string -> string -> bool)
    (req : request) (c : ctx) :
  (session (snd (login check_password_hash req c)) = session c
   /\ fst (login check_password_hash req c) <> Return (Redirect "index"))
  \/ (exists u p row,
        posted req u p
        /\ find (username_is u) (visible (db c)) = Some row
        /\ check_password_hash (user.password row) p = true).
Proof.
  destruct (method req =? "POST")%string eqn:Hm.
  2:{ left. unfold login. rewrite Hm. now cbn. }
  apply String.eqb_eq in Hm.
  destruct (form req !! "username") as [u|] eqn:Hu.
  2:{ left. rewrite (login_lacks_username _ _ _ Hm Hu). now cbn. }
  destruct (form req !! "password") as [p|] eqn:Hp.
  2:{ left. rewrite (login_lacks_password _ _ _ Hm); [now cbn | congruence | exact Hp]. }
  assert (H : posted req u p) by now repeat split.
  destruct (find (username_is u) (visible (db c))) as [row|] eqn:Hf.
  - destruct (check_password_hash (user.password row) p) eqn:Hc.
    + right. now exists u, p, row.
    + left. rewrite (login_found _ _ _ _ _ _ H Hf), Hc. now cbn.
  - left. rewrite (login_unknown _ _ _ _ _ H (find_none_unregistered _ _ Hf)).
    now cbn.
Qed.

(** X9.  [login] redirects to [index] only for verified credentials: a
    redirect means that the request was a POST with both fields, that
    the table has a row carrying exactly the submitted username, that
    [check_password_hash] accepted the submitted password against that
    row's hash, and that the session now holds [user_id], set to that
    row's id, and nothing else.  Any other outcome, an exception
    included, leaves the session as it was. *)
Theorem login_redirect_means_verified
    (check_password_hash : string -> string -> bool)
    (req : request) (c : ctx) :
  (fst (login check_password_hash req c) = Return (Redirect "index") ->
   exists u p row,
     posted req u p
     /\ row ∈ visible (db c) /\ user.username row = u
     /\ check_password_hash (user.password row) p = true
     /\ session (snd (login check_password_hash req c))
        = {["user_id" := user.id row]})
  /\ (fst (login check_password_hash req c) <> Return (Redirect "index") ->
     session (snd (login check_password_hash req c)) = session c).
Proof.
  destruct (login_cases check_password_hash req c)
    as [[Hs Hne] | (u & p & row & H & Hf & Hc)].
  - split; [intros E; now destruct Hne | intros _; exact Hs].
  - rewrite (login_found _ _ _ _ _ _ H Hf), Hc. cbn. split.
    + intros _. exists u, p, row.
      apply find_username_some in Hf as [Hin Hr].
      split; [exact H|]. split; [exact Hin|]. split; [exact Hr|].
      split; [exact Hc | reflexivity].
    + intros Hne. now destruct Hne.
Qed.

(** X11.  After an accepted registration, a POST to [login] with the same
    username and a password that [check_password_hash] rejects against
    the stored hash is turned down with ['Incorrect password.'], in any
    later request that sees what the registration committed; that
    request's session is left as it was. *)
Theorem register_then_wrong_password
    (generate_password_hash : string -> string -> string)
    (check_password_hash : string -> string -> bool)
    (salt : string) (req_register req_login : request) (u p p' : string)
    (c c2 : ctx) :
  posted req_register u p -> posted req_login u p' ->
  u <> "" -> p <> "" -> unregistered u c ->
  check_password_hash (generate_password_hash salt p) p' = false ->
  visible (db c2)
    = stored (db (snd (register generate_password_hash salt req_register c))) ->
  login check_password_hash req_login c2
    = (Return (Render "auth/login.html"),
       set_flashes (flashes c2 ++ ["Incorrect password."]) c2).
Proof.
  intros Hr Hl Hu Hp Hun Hc Hsee.
  rewrite (register_fresh _ _ _ _ _ _ Hr Hu Hp Hun) in Hsee. cbn in Hsee.
  rewrite (login_found check_password_hash _ _ _ _
             (user.mk (next_id (visible (db c))) u (generate_password_hash salt p))
             Hl).
  - cbn. now rewrite Hc.
  - rewrite Hsee. apply find_app_fresh.
    + now apply find_username_none.
    + now apply username_is_true.
Qed.

(** ** The identity of a request *)

(** X12.  Whatever [load_logged_in_user] puts in [g.user] is backed by
    the session and the table: if [g.user] is a row after the hook, that
    row is in the table and its id is the session's [user_id]. *)
Theorem load_logged_in_user_sound (c : ctx) (row : user.t) :
  g_user (snd (load_logged_in_user c)) = Some row ->
  row ∈ visible (db c) /\ session c !! "user_id" = Some (user.id row).
Proof.
  unfold load_logged_in_user, bind, session_get, select_user_by_id, assign_g_user.
  destruct (session c !! "user_id") as [i|]; cbn; [|discriminate].
  intros Hf. apply find_some in Hf as [Hin Hi].
  apply Z.eqb_eq in Hi. split; [now apply list_elem_of_In | congruence].
Qed.

(** X13.  [load_logged_in_user] always assigns [g.user] afresh: what it
    leaves does not depend on the [g.user] it starts from, so no
    identity survives from an earlier value; and running the hook a
    second time changes nothing. *)
Theorem load_logged_in_user_overrides (c : ctx) (u1 u2 : option user.t) :
  load_logged_in_user (set_g_user u1 c) = load_logged_in_user (set_g_user u2 c)
  /\ (load_logged_in_user ;; load_logged_in_user)%view c = load_logged_in_user c.
Proof.
  unfold load_logged_in_user, bind, session_get, select_user_by_id, assign_g_user.
  cbn. destruct (session c !! "user_id") as [i|] eqn:E; cbn; rewrite ?E; now cbn.
Qed.

(** ** From one request to the next *)

Lemma login_keeps_db (check_password_hash : string -> string -> bool) req c :
  db (snd (login check_password_hash req c)) = db c.
Proof.
  unfold login, bind, form_get, ret, raise, select_user_by_username,
    session_clear, session_set, flash.
  destruct (method req =? "POST")%string; [|now cbn].
  destruct (form req !! "username") as [u|]; [|now cbn].
  destruct (form req !! "password") as [p|]; [|now cbn].
  cbn. destruct (find (username_is u) (visible (db c))) as [row|]; [|now cbn].
  destruct (check_password_hash (user.password row) p); now cbn.
Qed.

Lemma load_logged_in_user_later c1 c2 :
  later c1 c2 ->
  g_user (snd (load_logged_in_user c2)) = g_user (snd (load_logged_in_user c1)).
Proof.
  intros [Hs Hd].
  unfold load_logged_in_user, bind, session_get, select_user_by_id, assign_g_user.
  cbn. rewrite Hs. destruct (session c1 !! "user_id"); cbn; now rewrite ?Hd.
Qed.

Lemma handle_logged_in {K : Type} (view : K -> M response) kwargs c row :
  session c !! "user_id" = Some (user.id row) ->
  ids_unique c -> row ∈ visible (db c) ->
  handle (login_required view kwargs) c = view kwargs (set_g_user (Some row) c).
Proof.
  intros Hs Hnd Hin.
  unfold handle, load_logged_in_user, login_required, bind, session_get,
    select_user_by_id, assign_g_user, read_g_user.
  rewrite Hs. now rewrite (find_id_unique _ _ Hnd Hin).
Qed.

Lemma handle_anonymous {K : Type} (view : K -> M response) kwargs c :
  g_user (snd (load_logged_in_user c)) = None ->
  handle (login_required view kwargs) c
    = (Return (Redirect "auth.login"), set_g_user None c).
Proof.
  unfold handle, load_logged_in_user, login_required, bind, session_get,
    select_user_by_id, assign_g_user, read_g_user, ret.
  destruct (session c !! "user_id") as [i|]; cbn; [|reflexivity].
  now intros ->.
Qed.



(** X14.  A login that redirected opens the guarded views to the next
    request: in any later request of the same client, over a table whose
    ids are distinct, [load_logged_in_user] followed by a view wrapped
    in [login_required] is the wrapped view itself, run with [g.user]
    set to a row of the table that carries the username the login
    submitted. *)
Theorem login_then_guarded_view
    {K : Type} (check_password_hash : string -> string -> bool)
    (req : request) (c c2 : ctx) (view : K -> M response) (kwargs : K) :
  fst (login check_password_hash req c) = Return (Redirect "index") ->
  ids_unique c ->
  later (snd (login check_password_hash req c)) c2 ->
  exists row,
    row ∈ visible (db c)
    /\ form req !! "username" = Some (user.username row)
    /\ handle (login_required view kwargs) c2
       = view kwargs (set_g_user (Some row) c2).
Proof.
  intros Hredir Hnd [Hs Hd].
  rewrite login_keeps_db in Hd.
  destruct (login_cases check_password_hash req c)
    as [[_ Hne] | (u & p & row & H & Hf & Hc)]; [now destruct Hne|].
  rewrite (login_found _ _ _ _ _ _ H Hf), Hc in Hs. cbn in Hs.
  apply find_username_some in Hf as [Hin Hr].
  exists row. split; [exact Hin|]. split.
  - destruct H as (_ & Hu & _). now rewrite Hr.
  - apply handle_logged_in.
    + rewrite Hs. apply lookup_insert_eq.
    + unfold ids_unique. now rewrite Hd.
    + now rewrite Hd.
Qed.

(** X15.  After [logout], whoever was logged in, the next request of the
    client is anonymous: [load_logged_in_user] followed by any view
    wrapped in [login_required] redirects to [auth.login] without
    running the view. *)
Theorem logout_then_guarded_view
    {K : Type} (c c2 : ctx) (view : K -> M response) (kwargs : K) :
  later (snd (logout c)) c2 ->
  handle (login_required view kwargs) c2
    = (Return (Redirect "auth.login"), set_g_user None c2).
Proof.
  intros [Hs Hd]. apply handle_anonymous.
  unfold load_logged_in_user, bind, session_get, select_user_by_id, assign_g_user.
  rewrite Hs. reflexivity.
Qed.

(** X16.  A request whose session has no [user_id], or a [user_id] that
    no row of the table carries, is anonymous: [load_logged_in_user]
    followed by any view wrapped in [login_required] redirects to
    [auth.login] without running the view, and the session is kept as
    it came, the dangling id included. *)
Theorem dangling_session_is_anonymous
    {K : Type} (c : ctx) (view : K -> M response) (kwargs : K) :
  (session c !! "user_id" = None
   \/ exists i, session c !! "user_id" = Some i
                /\ forall r, r ∈ visible (db c) -> user.id r <> i) ->
  handle (login_required view kwargs) c
    = (Return (Redirect "auth.login"), set_g_user None c)
  /\ session (snd (handle (login_required view kwargs) c)) = session c.
Proof.
  intros Hcase.
  assert (E : handle (login_required view kwargs) c
              = (Return (Redirect "auth.login"), set_g_user None c)).
  { apply handle_anonymous.
    unfold load_logged_in_user, bind, session_get, select_user_by_id,
      assign_g_user.
    destruct Hcase as [-> | (i & -> & Hno)]; [reflexivity|].
    cbn. now rewrite (find_id_none _ _ Hno). }
  now rewrite E.
Qed.

(** X17.  A login attempt that does not redirect (wrong credentials, a
    GET, a missing field) logs nobody out: any later request of the
    client gets from [load_logged_in_user] the [g.user] it would have
    got without the attempt. *)
Theorem failed_login_keeps_identity
    (check_password_hash : string -> string -> bool)
    (req : request) (c c2 : ctx) :
  fst (login check_password_hash req c) <> Return (Redirect "index") ->
  later (snd (login check_password_hash req c)) c2 ->
  g_user (snd (load_logged_in_user c2)) = g_user (snd (load_logged_in_user c)).
Proof.
  intros Hne [Hs Hd]. apply load_logged_in_user_later. split.
  - rewrite Hs.
    destruct (login_cases check_password_hash req c)
      as [[Hs' _] | (u & p & row & H & Hf & Hc)]; [exact Hs'|].
    exfalso. apply Hne. now rewrite (login_found _ _ _ _ _ _ H Hf), Hc.
  - rewrite Hd. apply login_keeps_db.
Qed.

(** ** The test client's actions *)





(** * The further properties on concrete requests *)

Lemma views_render_form_unless_post_witness :
  register toy.generate_password_hash "pepper" get_request demo_ctx
    = (Return (Render "auth/register.html"), demo_ctx)
  /\ login toy.check_password_hash get_request demo_ctx
    = (Return (Render "auth/login.html"), demo_ctx).
Proof.
  apply views_render_form_unless_post. discriminate.
Defined.

Lemma register_missing_field_witness :
  register toy.generate_password_hash "pepper" (mkreq "POST" ∅) demo_ctx
    = (Raise (BadRequestKeyError "username"), demo_ctx)
  /\ register toy.generate_password_hash "pepper" (post_username_only "alice")
       demo_ctx
    = (Raise (BadRequestKeyError "password"), demo_ctx).
Proof.
  split.
  - apply (register_missing_field toy.generate_password_hash "pepper"
             (mkreq "POST" ∅) demo_ctx eq_refl). reflexivity.
  - apply (register_missing_field toy.generate_password_hash "pepper"
             (post_username_only "alice") demo_ctx eq_refl);
      [discriminate | reflexivity].
Defined.

Lemma login_missing_field_witness :
  login toy.check_password_hash (mkreq "POST" ∅) demo_ctx
    = (Raise (BadRequestKeyError "username"), demo_ctx)
  /\ login toy.check_password_hash (post_username_only "alice") demo_ctx
    = (Raise (BadRequestKeyError "password"), demo_ctx).
Proof.
  split.
  - apply (login_missing_field toy.check_password_hash
             (mkreq "POST" ∅) demo_ctx eq_refl). reflexivity.
  - apply (login_missing_field toy.check_password_hash
             (post_username_only "alice") demo_ctx eq_refl);
      [discriminate | reflexivity].
Defined.

Lemma login_frame_witness :
  session (snd (login toy.check_password_hash (post "alice" "wonderland")
                  (set_g_user (Some alice) (set_session ∅ demo_ctx))))
  = session (snd (login toy.check_password_hash (post "alice" "wonderland")
                    demo_ctx)).
Proof.
  destruct (login_frame toy.check_password_hash (post "alice" "wonderland")
              demo_ctx) as (_ & _ & H).
  destruct (H ∅ (Some alice)) as [_ Hs]. apply Hs. reflexivity.
Defined.

Lemma register_keeps_usernames_unique_witness :
  usernames_unique demo_ctx
  /\ usernames_unique
       (snd (register toy.generate_password_hash "pepper"
               (post "bob" "builder") demo_ctx))
  /\ usernames_unique
       (snd (register toy.generate_password_hash "pepper"
               (post "alice" "builder") demo_ctx)).
Proof.
  assert (H : usernames_unique demo_ctx) by apply NoDup_singleton.
  split; [exact H|]. split; now apply register_keeps_usernames_unique.
Defined.

Lemma register_writes_only_on_redirect_witness :
  (exists u p,
     form (post "bob" "builder") !! "username" = Some u
     /\ form (post "bob" "builder") !! "password" = Some p
     /\ visible (db (snd (register toy.generate_password_hash "pepper"
                            (post "bob" "builder") demo_ctx)))
        = (visible (db demo_ctx)
           ++ [user.mk (next_id (visible (db demo_ctx))) u
                 (toy.generate_password_hash "pepper" p)])%list
     /\ stored (db (snd (register toy.generate_password_hash "pepper"
                           (post "bob" "builder") demo_ctx)))
        = visible (db (snd (register toy.generate_password_hash "pepper"
                              (post "bob" "builder") demo_ctx))))
  /\ db (snd (register toy.generate_password_hash "pepper"
                (post "bob" "") demo_ctx)) = db demo_ctx.
Proof.
  split.
  - apply (register_writes_only_on_redirect toy.generate_password_hash
             "pepper" (post "bob" "builder") demo_ctx). reflexivity.
  - apply (register_writes_only_on_redirect toy.generate_password_hash
             "pepper" (post "bob" "") demo_ctx). discriminate.
Defined.

Lemma login_redirect_means_verified_witness :
  (exists u p row,
     posted (post "alice" "wonderland") u p
     /\ row ∈ visible (db demo_ctx) /\ user.username row = u
     /\ toy.check_password_hash (user.password row) p = true
     /\ session (snd (login toy.check_password_hash
                        (post "alice" "wonderland") demo_ctx))
        = {["user_id" := user.id row]})
  /\ session (snd (login toy.check_password_hash
                     (post "alice" "looking-glass") demo_ctx))
     = session demo_ctx.
Proof.
  split.
  - apply (login_redirect_means_verified toy.check_password_hash
             (post "alice" "wonderland") demo_ctx). reflexivity.
  - apply (login_redirect_means_verified toy.check_password_hash
             (post "alice" "looking-glass") demo_ctx). discriminate.
Defined.

Lemma register_twice_conflicts_witness :
  (register toy.generate_password_hash "pepper" (post "bob" "builder") ;;
   register toy.generate_password_hash "cumin" (post "bob" "hunter2")) demo_ctx
  = (Return (Render "auth/register.html"),
     set_flashes ["User bob is already registered."]
       (set_db (mkdb [alice; user.mk 2 "bob" "toy$builder$pepper"]
                     [alice; user.mk 2 "bob" "toy$builder$pepper"])
          demo_ctx)).
Proof.
  apply (register_twice_conflicts toy.generate_password_hash "pepper" "cumin"
           (post "bob" "builder") (post "bob" "hunter2") "bob" "builder"
           "hunter2" demo_ctx).
  - apply posted_post.
  - apply posted_post.
  - discriminate.
  - discriminate.
  - discriminate.
  - apply unregistered_untaken. reflexivity.
Defined.

Lemma register_then_wrong_password_witness :
  login toy.check_password_hash (post "bob" "b0b")
    (snd (register toy.generate_password_hash "pepper" (post "bob" "builder")
            demo_ctx))
  = (Return (Render "auth/login.html"),
     set_flashes ["Incorrect password."]
       (snd (register toy.generate_password_hash "pepper"
               (post "bob" "builder") demo_ctx))).
Proof.
  apply (register_then_wrong_password toy.generate_password_hash
           toy.check_password_hash "pepper" (post "bob" "builder")
           (post "bob" "b0b") "bob" "builder" "b0b" demo_ctx).
  - apply posted_post.
  - apply posted_post.
  - discriminate.
  - discriminate.
  - apply unregistered_untaken. reflexivity.
  - reflexivity.
  - reflexivity.
Defined.

Lemma load_logged_in_user_sound_witness :
  alice ∈ visible (db (set_session {["user_id" := 1]} demo_ctx))
  /\ session (set_session {["user_id" := 1]} demo_ctx) !! "user_id"
     = Some (user.id alice).
Proof.
  apply load_logged_in_user_sound. reflexivity.
Defined.

Lemma login_then_guarded_view_witness :
  exists row,
    row ∈ visible (db demo_ctx)
    /\ form (post "alice" "wonderland") !! "username" = Some (user.username row)
    /\ handle (login_required create_post "hello")
         (snd (login toy.check_password_hash (post "alice" "wonderland")
                 demo_ctx))
       = create_post "hello"
           (set_g_user (Some row)
              (snd (login toy.check_password_hash (post "alice" "wonderland")
                      demo_ctx))).
Proof.
  apply (login_then_guarded_view toy.check_password_hash
           (post "alice" "wonderland") demo_ctx).
  - reflexivity.
  - apply NoDup_singleton.
  - split; reflexivity.
Defined.

Lemma logout_then_guarded_view_witness :
  handle (login_required create_post "hello")
    (snd (logout (set_session {["user_id" := 1]} demo_ctx)))
  = (Return (Redirect "auth.login"),
     set_g_user None (snd (logout (set_session {["user_id" := 1]} demo_ctx)))).
Proof.
  apply (logout_then_guarded_view (set_session {["user_id" := 1]} demo_ctx)).
  split; reflexivity.
Defined.

Lemma dangling_session_is_anonymous_witness :
  handle (login_required create_post "hello")
    (set_session {["user_id" := 9]} demo_ctx)
  = (Return (Redirect "auth.login"),
     set_g_user None (set_session {["user_id" := 9]} demo_ctx))
  /\ session (snd (handle (login_required create_post "hello")
                     (set_session {["user_id" := 9]} demo_ctx)))
     = session (set_session {["user_id" := 9]} demo_ctx).
Proof.
  apply (dangling_session_is_anonymous
           (set_session {["user_id" := 9]} demo_ctx) create_post "hello").
  right. exists 9. split; [reflexivity|].
  intros r Hr. apply list_elem_of_singleton in Hr. subst r. discriminate.
Defined.

Lemma failed_login_keeps_identity_witness :
  g_user (snd (load_logged_in_user
                 (snd (login toy.check_password_hash
                         (post "alice" "looking-glass")
                         (set_session {["user_id" := 1]} demo_ctx)))))
  = g_user (snd (load_logged_in_user
                   (set_session {["user_id" := 1]} demo_ctx))).
Proof.
  apply (failed_login_keeps_identity toy.check_password_hash
           (post "alice" "looking-glass")
           (set_session {["user_id" := 1]} demo_ctx)).
  - discriminate.
  - split; reflexivity.
Defined.

